(** * shapash.utils.check: the validation guards of the explainer set-up

    A shallow embedding of [src/shapash/utils/check.py].  Every guard of the
    module becomes a function into the error monad [result]; [raise] becomes
    [Raise], falling off the end of a function becomes [Return tt].
    [check_preprocessing] is left out: all it does is call two functions of
    [shapash.utils.transform].

    The Python values the guards can be handed are embedded in [pyval]:
    - hashable scalars are [atom]s.  [==] on them is Leibniz equality: a
      [bool] and an integral [float] are represented by the [int] they are
      equal to ([True == 1 == 1.0], with equal hashes), so that a Python
      [set] of scalars is a [gset atom];
    - [AObj] stands for an object of any class that is not modelled: it has
      the default identity equality and hash and no container protocol;
    - a numpy array is the tree of its axes, a pandas table is its index and
      its typed columns. *)

From Stdlib Require Import ZArith String Ascii.
From stdpp Require Import base decidable countable gmap sets list strings.

Set Warnings "-register-all".
Local Open Scope Z_scope.
Local Open Scope string_scope.

(** ** Python values *)

Inductive atom :=
  | ANone
  | AInt (z : Z)
  | AStr (s : string)
  | AObj (id : positive).

#[global] Instance atom_eq_dec : EqDecision atom.
Proof. solve_decision. Defined.

Definition atom_to_sum (a : atom) : unit + Z + string + positive :=
  match a with
  | ANone => inl (inl (inl ()))
  | AInt z => inl (inl (inr z))
  | AStr s => inl (inr s)
  | AObj i => inr i
  end.

Definition atom_of_sum (x : unit + Z + string + positive) : atom :=
  match x with
  | inl (inl (inl _)) => ANone
  | inl (inl (inr z)) => AInt z
  | inl (inr s) => AStr s
  | inr i => AObj i
  end.

Definition atom_of_to_sum (a : atom) : atom_of_sum (atom_to_sum a) = a :=
  match a with
  | ANone | AInt _ | AStr _ | AObj _ => eq_refl
  end.

#[global] Instance atom_countable : Countable atom :=
  inj_countable' atom_to_sum atom_of_sum atom_of_to_sum.

(** Element types ([numpy.dtype]); [other_dtype] is any other one, the
    pandas extension types included, which are equal to no Python type. *)
Inductive dtype :=
  | bool_ | int8 | int16 | int32 | int64
  | uint8 | uint16 | uint32 | uint64
  | float16 | float32 | float64
  | complex128 | datetime64 | object_ | other_dtype.

#[global] Instance dtype_eq_dec : EqDecision dtype.
Proof. solve_decision. Defined.

(** [numpy.ndarray]: a 0-d array holds one scalar, an n-d array is the
    sequence of its sub-arrays along the first axis. *)
Inductive ndarray :=
  | NdScalar (a : atom)
  | NdArray (items : list ndarray).

(** [pandas.Series]: row labels, element type, name and entries. *)
Record Series := {
  s_index : list atom;
  s_dtype : dtype;
  s_name : atom;
  s_values : list atom
}.

Record Column := {
  col_name : atom;
  col_dtype : dtype;
  col_values : list atom
}.

(** [pandas.DataFrame]: row labels and the columns from left to right. *)
Record DataFrame := {
  df_index : list atom;
  df_columns : list Column
}.

Inductive pyval :=
  | PAtom (a : atom)
  | PList (items : list pyval)
  | PDict (items : list (atom * pyval))
  | PNdarray (a : ndarray)
  | PSeries (s : Series)
  | PDataFrame (df : DataFrame).

Abbreviation PNone := (PAtom ANone).
Abbreviation PInt z := (PAtom (AInt z)).
Abbreviation PStr s := (PAtom (AStr s)).

(** ** Exceptions *)

(** The text of an exception: literal pieces and [str(v)] of a value, whose
    rendering is left symbolic. *)
Inductive fragment :=
  | Lit (s : string)
  | StrOf (v : pyval).

(** [Msg] is a message built by this module; [LibraryMsg] is the message of
    an error raised inside numpy or pandas, whose text is not modelled. *)
Inductive message :=
  | Msg (parts : list fragment)
  | LibraryMsg.

Inductive exn :=
  | ValueError (msg : message)
  | TypeError
  | AttributeError
  | KeyError
  | IndexError.

Inductive result (A : Type) :=
  | Return (a : A)
  | Raise (e : exn).

Arguments Return {A} a.
Arguments Raise {A} e.

(** Sequencing: an exception raised by [r] propagates. *)
Definition bind {A B : Type} (r : result A) (k : A → result B) : result B :=
  match r with
  | Return a => k a
  | Raise e => Raise e
  end.

Notation "x <- r ;; k" := (bind r (λ x, k))
  (at level 100, r at next level, right associativity, only parsing).

(** [raise ValueError(s)] for a string literal [s]. *)
Definition raise_ValueError {A : Type} (s : string) : result A :=
  Raise (ValueError (Msg [Lit s])).

Definition nl : string := String (ascii_of_nat 10) EmptyString.

(** A triple-quoted literal, given line by line. *)
Definition py_lines (ls : list string) : string := String.concat nl ls.

(** ** Builtins *)

(** [a.tolist()] *)
Fixpoint tolist (a : ndarray) : pyval :=
  match a with
  | NdScalar x => PAtom x
  | NdArray items => PList (tolist <$> items)
  end.

(** The elements of an array, in row-major order. *)
Fixpoint nd_flat (a : ndarray) : list atom :=
  match a with
  | NdScalar x => [x]
  | NdArray items => flat_map nd_flat items
  end.

(** [bool(a)] of a numpy array of booleans: an empty array is falsy, an
    array of one element has that element's truth value, a larger one has
    none (numpy of the versions that still have [np.float]). *)
Definition nd_truth (bs : list bool) : result bool :=
  match bs with
  | [] => Return false
  | [b] => Return b
  | _ :: _ :: _ => Raise (ValueError LibraryMsg)
  end.

(** The truth value of [v == []].  A list is equal to [[]] when it is empty
    (lists of different lengths are unequal without looking at the items).
    numpy compares element-wise against an array of no element: the outcome
    is an empty array, or [False] when the shapes do not broadcast, falsy
    either way.  pandas compares element-wise too and then refuses to give
    a truth value (or rejects the lengths): a [ValueError] either way. *)
Definition py_eq_nil (v : pyval) : result bool :=
  match v with
  | PList [] => Return true
  | PList (_ :: _) | PAtom _ | PDict _ => Return false
  | PNdarray _ => Return false
  | PSeries _ | PDataFrame _ => Raise (ValueError LibraryMsg)
  end.

(** The truth value of [v == None]; numpy and pandas compare element-wise. *)
Definition py_eq_None (v : pyval) : result bool :=
  match v with
  | PAtom a => Return (bool_decide (a = ANone))
  | PList _ | PDict _ => Return false
  | PNdarray a => nd_truth (map (λ x, bool_decide (x = ANone)) (nd_flat a))
  | PSeries _ | PDataFrame _ => Raise (ValueError LibraryMsg)
  end.

(** [v in (None, [])]: the members are tried from left to right. *)
Definition py_in_None_nil (v : pyval) : result bool :=
  isnone <- py_eq_None v;;
  if isnone then Return true else py_eq_nil v.

(** [v is None] *)
Definition py_is_None (v : pyval) : bool :=
  match v with
  | PAtom ANone => true
  | _ => false
  end.

(** [a == s] for a string literal [s]. *)
Definition atom_eq_str (a : atom) (s : string) : bool :=
  bool_decide (a = AStr s).

(** ** check_model *)

(** A model object is the finite map of its attributes; a method is an
    opaque object.  [hasattr(model, name)] and [model.name]: *)
Definition hasattr (model : gmap string pyval) (name : string) : bool :=
  bool_decide (is_Some (model !! name)).

(** The local [_classes] after lines 43 and 47-49: [None], overwritten by
    [model._classes] if there is one, overwritten by [model.classes_] if
    there is one, an array turned into a list. *)
Definition derived_classes (model : gmap string pyval) : pyval :=
  let _classes := PNone in
  let _classes := default _classes (model !! "_classes") in
  let _classes := default _classes (model !! "classes_") in
  match _classes with
  | PNdarray a => tolist a
  | _ => _classes
  end.

Definition no_classes_msg : string :=
  "No attribute _classes, classification model not supported".

Definition no_predict_msg : string :=
  "No method predict in the specified model. Please, check model parameter".

Definition check_model (model : gmap string pyval) : result (atom * pyval) :=
  let _classes := PNone in                                      (* line 43 *)
  if hasattr model "predict" then
    _classes <-
      (if hasattr model "predict_proba"
          || existsb (λ attrib, hasattr model attrib) ["classes_"; "_classes"]
       then
         let _classes := derived_classes model in         (* lines 47-49 *)
         _classes <-                                            (* line 50 *)
           (if hasattr model "predict_proba" then
              empty <- py_eq_nil _classes;;
              Return (if empty then PList [PInt 0; PInt 1] else _classes)
            else Return _classes);;
         if hasattr model "predict_proba" && py_is_None _classes (* line 51 *)
         then raise_ValueError no_classes_msg
         else Return _classes
       else Return _classes);;
    excluded <- py_in_None_nil _classes;;                       (* line 55 *)
    if negb excluded
    then Return (AStr "classification", _classes)
    else Return (AStr "regression", PNone)
  else raise_ValueError no_predict_msg.

(** ** check_label_dict *)

(** The characters of a string, each as a string of length one. *)
Fixpoint chars (s : string) : list atom :=
  match s with
  | EmptyString => []
  | String c rest => AStr (String c EmptyString) :: chars rest
  end.

(** [list(v)]: the items that iterating over [v] yields.  A string yields
    its characters, a dict its keys, an array its sub-arrays along the first
    axis (scalars for a 1-d array), a Series its entries and a DataFrame its
    column labels; the other scalars are not iterable. *)
Definition py_iter (v : pyval) : result (list pyval) :=
  match v with
  | PAtom (AStr s) => Return (PAtom <$> chars s)
  | PAtom _ => Raise TypeError
  | PList items => Return items
  | PDict items => Return (PAtom <$> items.*1)
  | PNdarray (NdScalar _) => Raise TypeError
  | PNdarray (NdArray items) =>
      Return ((λ sub, match sub with
                      | NdScalar x => PAtom x
                      | NdArray _ => PNdarray sub
                      end) <$> items)
  | PSeries s => Return (PAtom <$> s_values s)
  | PDataFrame df => Return (PAtom ∘ col_name <$> df_columns df)
  end.

(** [hash(v)] succeeds on scalars only: lists, dicts, arrays and tables are
    unhashable. *)
Definition py_hashable (v : pyval) : result atom :=
  match v with
  | PAtom a => Return a
  | _ => Raise TypeError
  end.

Fixpoint mapM {A B : Type} (f : A → result B) (l : list A) : result (list B) :=
  match l with
  | [] => Return []
  | a :: l' => b <- f a;; bs <- mapM f l';; Return (b :: bs)
  end.

(** [set(v)] *)
Definition py_set (v : pyval) : result (gset atom) :=
  items <- py_iter v;;
  atoms <- mapM py_hashable items;;
  Return (list_to_set atoms).

(** [list(v.keys())]: the keys of a dict in insertion order, the index of a
    Series, the column labels of a DataFrame; nothing else modelled here has
    a [keys] method. *)
Definition py_keys (v : pyval) : result (list atom) :=
  match v with
  | PDict items => Return items.*1
  | PSeries s => Return (s_index s)
  | PDataFrame df => Return (col_name <$> df_columns df)
  | PAtom _ | PList _ | PNdarray _ => Raise AttributeError
  end.

Definition label_mismatch_msg (keys : list atom) (classes : pyval) : message :=
  Msg [Lit ("label_dict and don't match: " +:+ nl);
       Lit "label_dict keys: "; StrOf (PList (PAtom <$> keys)); Lit nl;
       Lit "Classes model values "; StrOf classes].

Definition check_label_dict (label_dict : pyval) (case : atom) (classes : pyval)
    : result unit :=
  if negb (py_is_None label_dict) && atom_eq_str case "classification" then
    set_classes <- py_set classes;;
    keys <- py_keys label_dict;;
    if bool_decide (set_classes ≠ list_to_set keys)
    then Raise (ValueError (label_mismatch_msg keys classes))
    else Return tt
  else Return tt.

(** ** check_mask_params *)

Definition mask_not_dict_msg : string :=
  py_lines [""; "            mask_params must be a dict  "; "            "].

Definition mask_keys_msg : string :=
  py_lines [""; "            mask_params must only have the following key arguments:";
            "            -feature_to_hide";
            "            -threshold";
            "            -positive";
            "            -max_contrib ";
            "            "].

Definition conform_arguments : list string :=
  ["features_to_hide"; "threshold"; "positive"; "max_contrib"].

Definition check_mask_params (mask_params : pyval) : result unit :=
  match mask_params with
  | PDict items =>
      let mask_arguments_not_conform :=
        filter (λ argument, argument ∉ AStr <$> conform_arguments) items.*1 in
      if bool_decide (length mask_arguments_not_conform ≠ 0%nat)
      then raise_ValueError mask_keys_msg
      else Return tt
  | _ => raise_ValueError mask_not_dict_msg
  end.

(** ** check_ypred *)

Inductive pyclass :=
  | cls_list | cls_dict | cls_ndarray | cls_Series | cls_DataFrame.

#[global] Instance pyclass_eq_dec : EqDecision pyclass.
Proof. solve_decision. Defined.

Definition class_of (v : pyval) : option pyclass :=
  match v with
  | PAtom _ => None
  | PList _ => Some cls_list
  | PDict _ => Some cls_dict
  | PNdarray _ => Some cls_ndarray
  | PSeries _ => Some cls_Series
  | PDataFrame _ => Some cls_DataFrame
  end.

(** [isinstance(v, (c1, ..., cn))] *)
Definition isinstance (v : pyval) (classes : list pyclass) : bool :=
  match class_of v with
  | Some c => bool_decide (c ∈ classes)
  | None => false
  end.

(** [np.float] and [np.int] are numpy's aliases of the builtin types. *)
Inductive pytype := np_float | np_int.

(** The dtype numpy makes of a Python type before it compares a dtype with
    it: [float] is [float64], [int] is the C long of the platform, taken
    here as the 64 bits of Linux and macOS. *)
Definition dtype_of_type (t : pytype) : dtype :=
  match t with
  | np_float => float64
  | np_int => int64
  end.

(** [d in [t1, ..., tn]] *)
Definition dtype_in (d : dtype) (types : list pytype) : bool :=
  existsb (λ t, bool_decide (d = dtype_of_type t)) types.

(** [v.index], where [v] is a table. *)
Definition py_index (v : pyval) : result (list atom) :=
  match v with
  | PSeries s => Return (s_index s)
  | PDataFrame df => Return (df_index df)
  | _ => Raise AttributeError
  end.

(** [i.equals(j)]: the same labels in the same order. *)
Definition index_equals (i j : list atom) : bool := bool_decide (i = j).

Definition is_int_label (a : atom) : bool :=
  match a with
  | AInt _ => true
  | _ => false
  end.

(** [df.dtypes[0]], for a frame of at most one column.  [df.dtypes] is a
    Series over the column labels: when these are integers, [0] is looked up
    as a label, otherwise as a position.  The kind of index that pandas gave
    the columns is read off the label here, which is what pandas does for a
    column labelled by an [int] or by a [str]; labels that are [bool] or
    [float], and frames without columns built on a range of integers, are
    outside this reading. *)
Definition dtypes_getitem0 (df : DataFrame) : result dtype :=
  match df_columns df with
  | [] => Raise IndexError
  | c :: _ =>
      if is_int_label (col_name c) && negb (bool_decide (col_name c = AInt 0))
      then Raise KeyError
      else Return (col_dtype c)
  end.

(** [s.to_frame()]: the same index and one column with the entries of [s],
    named after the series, or [0] if it has no name. *)
Definition to_frame (s : Series) : DataFrame :=
  {| df_index := s_index s;
     df_columns :=
       [ {| col_name := if bool_decide (s_name s = ANone) then AInt 0 else s_name s;
            col_dtype := s_dtype s;
            col_values := s_values s |} ] |}.

Definition raise_if (b : bool) (s : string) : result unit :=
  if b then raise_ValueError s else Return tt.

Definition ypred_case_msg : string :=
  "ypred should not be specified in classification problems.".

Definition ypred_type_msg : string :=
  "y_pred must be a one column pd.Dataframe or pd.Series.".

Definition ypred_index_msg : string :=
  "x_pred and y_pred should have the same index.".

Definition ypred_dtype_msg : string :=
  "y_pred must contain int or float only".

Definition check_ypred (case : atom) (x : DataFrame) (ypred : pyval)
    : result pyval :=
  if negb (py_is_None ypred) then
    _ <- raise_if (negb (atom_eq_str case "classification")) ypred_case_msg;;
    _ <- raise_if (negb (isinstance ypred [cls_DataFrame; cls_Series]))
           ypred_type_msg;;
    index <- py_index ypred;;
    _ <- raise_if (negb (index_equals index (df_index x))) ypred_index_msg;;
    _ <- match ypred with
         | PDataFrame df =>
             _ <- raise_if (bool_decide (1 < length (df_columns df))%nat)
                    ypred_type_msg;;
             d <- dtypes_getitem0 df;;
             raise_if (negb (dtype_in d [np_float; np_int])) ypred_dtype_msg
         | _ => Return tt
         end;;
    match ypred with
    | PSeries s =>
        _ <- raise_if (negb (dtype_in (s_dtype s) [np_float; np_int]))
               ypred_dtype_msg;;
        Return (PDataFrame (to_frame s))
    | _ => Return ypred
    end
  else Return ypred.

(** ** validate_contributions *)

(** [len(v)] *)
Definition py_len (v : pyval) : result nat :=
  match v with
  | PAtom (AStr s) => Return (String.length s)
  | PAtom _ => Raise TypeError
  | PList items => Return (length items)
  | PDict items => Return (length items)
  | PNdarray (NdScalar _) => Raise TypeError
  | PNdarray (NdArray items) => Return (length items)
  | PSeries s => Return (length (s_index s))
  | PDataFrame df => Return (length (df_index df))
  end.

Definition contrib_regression_msg : string :=
  py_lines [""; "            Type of contributions parameter specified is not compatible with ";
            "            regression model.";
            "            Please check model and contributions parameters.  ";
            "            "].

Definition contrib_length_msg : string :=
  py_lines [""; "                    Length of list of contributions parameter is not equal";
            "                    to the number of classes in the target.";
            "                    Please check model and contributions parameters.";
            "                    "].

Definition contrib_classification_msg : string :=
  py_lines [""; "                Type of contributions parameter specified is not compatible with ";
            "                classification model.";
            "                Please check model and contributions parameters.";
            "                "].

Definition validate_contributions (case : atom) (classes contributions : pyval)
    : result unit :=
  if atom_eq_str case "regression"
     && negb (isinstance contributions [cls_ndarray; cls_DataFrame])
  then raise_ValueError contrib_regression_msg
  else if atom_eq_str case "classification" then
    if isinstance contributions [cls_list] then
      len_contributions <- py_len contributions;;
      len_classes <- py_len classes;;
      raise_if (bool_decide (len_contributions ≠ len_classes)) contrib_length_msg
    else raise_ValueError contrib_classification_msg
  else Return tt.

(** ** The failures of the specification

    Every failure of the module is a [ValueError]; the specification tells
    the kinds apart by the guard that raises, that is by the message. *)

Definition MissingPredictError : exn := ValueError (Msg [Lit no_predict_msg]).

Definition MissingClassesError : exn := ValueError (Msg [Lit no_classes_msg]).

Definition LabelMismatchError (keys : list atom) (classes : pyval) : exn :=
  ValueError (label_mismatch_msg keys classes).

Definition InvalidMaskParamsError (e : exn) : Prop :=
  e = ValueError (Msg [Lit mask_not_dict_msg])
  ∨ e = ValueError (Msg [Lit mask_keys_msg]).

Definition InvalidYPredError (e : exn) : Prop :=
  e = ValueError (Msg [Lit ypred_case_msg])
  ∨ e = ValueError (Msg [Lit ypred_type_msg])
  ∨ e = ValueError (Msg [Lit ypred_index_msg])
  ∨ e = ValueError (Msg [Lit ypred_dtype_msg]).

Definition InvalidContributionsError (e : exn) : Prop :=
  e = ValueError (Msg [Lit contrib_regression_msg])
  ∨ e = ValueError (Msg [Lit contrib_length_msg])
  ∨ e = ValueError (Msg [Lit contrib_classification_msg]).

(** The numpy element types that hold integers or floating-point numbers. *)
Definition int_or_float (d : dtype) : bool :=
  match d with
  | int8 | int16 | int32 | int64 | uint8 | uint16 | uint32 | uint64
  | float16 | float32 | float64 => true
  | bool_ | complex128 | datetime64 | object_ | other_dtype => false
  end.

(** A single table or array: a numpy array or a DataFrame. *)
Definition is_table (v : pyval) : Prop :=
  (∃ a, v = PNdarray a) ∨ (∃ df, v = PDataFrame df).

(** Two lists hold the same set of labels. *)
Definition same_labels (l1 l2 : list atom) : Prop := ∀ a, a ∈ l1 ↔ a ∈ l2.

(** ** Sample inputs *)

Definition method (id : positive) : pyval := PAtom (AObj id).

(** A fitted estimator with both spellings of the classes attribute. *)
Definition model_both : gmap string pyval :=
  {[ "predict" := method 1;
     "_classes" := PList [PInt 1; PInt 2];
     "classes_" := PList [PInt 3; PInt 4] ]}.

(** An object that only has [predict_proba]. *)
Definition model_proba_only : gmap string pyval :=
  {[ "predict_proba" := method 1 ]}.

(** A binary catboost-like classifier: [classes_] is an empty array. *)
Definition model_catboost : gmap string pyval :=
  {[ "predict" := method 1; "predict_proba" := method 2;
     "classes_" := PNdarray (NdArray []) ]}.

Definition x_012 : DataFrame :=
  {| df_index := [AInt 0; AInt 1; AInt 2];
     df_columns :=
       [ {| col_name := AStr "age"; col_dtype := float64;
            col_values := [AInt 31; AInt 52; AInt 47] |} ] |}.

Definition series_on (index : list atom) (d : dtype) : Series :=
  {| s_index := index; s_dtype := d; s_name := AStr "pred";
     s_values := [AInt 1; AInt 0; AInt 1] |}.

(** ** check_preprocessing

    [preprocessing_tolist] and [check_supported_inverse] belong to
    [shapash.utils.transform]: they are parameters here, free to fail. *)

Definition preprocessing_msg : string :=
  py_lines [""; "                preprocessing isn't supported.  ";
            "                "].

Definition check_preprocessing
    (preprocessing_tolist : pyval → result (list pyval))
    (check_supported_inverse : list pyval → result (bool * bool))
    (preprocessing : pyval) : result unit :=
  if negb (py_is_None preprocessing) then
    list_preprocessing <- preprocessing_tolist preprocessing;;
    flags <- check_supported_inverse list_preprocessing;;
    let '(use_ct, use_ce) := flags in
    if negb use_ct && negb use_ce
    then raise_ValueError preprocessing_msg
    else Return tt
  else Return tt.

Definition UnsupportedPreprocessingError : exn :=
  ValueError (Msg [Lit preprocessing_msg]).

(** A pandas object: its comparisons are element-wise. *)
Definition is_pandas (v : pyval) : Prop :=
  (∃ s, v = PSeries s) ∨ (∃ df, v = PDataFrame df).

(** ** Basic facts about the builtins *)

Lemma py_is_None_true (v : pyval) : py_is_None v = true ↔ v = PNone.
Proof. destruct v as [[]| | | | |]; simpl; split; congruence. Qed.

Lemma py_is_None_false (v : pyval) : py_is_None v = false ↔ v ≠ PNone.
Proof. rewrite <- py_is_None_true. destruct (py_is_None v); split; congruence. Qed.

Lemma atom_eq_str_true (a : atom) (s : string) :
  atom_eq_str a s = true ↔ a = AStr s.
Proof. unfold atom_eq_str. by rewrite bool_decide_eq_true. Qed.

Lemma atom_eq_str_false (a : atom) (s : string) :
  atom_eq_str a s = false ↔ a ≠ AStr s.
Proof. unfold atom_eq_str. by rewrite bool_decide_eq_false. Qed.

Lemma hasattr_true (model : gmap string pyval) (name : string) :
  hasattr model name = true ↔ is_Some (model !! name).
Proof. unfold hasattr. by rewrite bool_decide_eq_true. Qed.

Lemma hasattr_false (model : gmap string pyval) (name : string) :
  hasattr model name = false ↔ model !! name = None.
Proof.
  unfold hasattr. by rewrite bool_decide_eq_false, eq_None_not_Some.
Qed.

Lemma hasattr_delete_ne (model : gmap string pyval) (gone name : string) :
  gone ≠ name → hasattr (delete gone model) name = hasattr model name.
Proof. intros Hne. unfold hasattr. by rewrite lookup_delete_ne. Qed.

Lemma mapM_hashable_atoms (atoms : list atom) :
  mapM py_hashable (PAtom <$> atoms) = Return atoms.
Proof.
  induction atoms as [|a atoms IH]; [done|].
  rewrite fmap_cons. cbn [mapM py_hashable bind]. by rewrite IH.
Qed.

Lemma py_set_list_of_atoms (atoms : list atom) :
  py_set (PList (PAtom <$> atoms)) = Return (list_to_set atoms).
Proof.
  unfold py_set. cbn [py_iter bind]. by rewrite mapM_hashable_atoms.
Qed.

(** A list of class labels is converted by [tolist] to itself. *)
Lemma tolist_1d (atoms : list atom) :
  tolist (NdArray (NdScalar <$> atoms)) = PList (PAtom <$> atoms).
Proof.
  cbn [tolist]. f_equal. induction atoms as [|a atoms IH]; [done|].
  rewrite !fmap_cons. cbn [tolist]. by rewrite IH.
Qed.

(** [tolist] never answers an array: after line 49 [_classes] is not one. *)
Lemma tolist_not_ndarray (a b : ndarray) : tolist a ≠ PNdarray b.
Proof. by destruct a. Qed.

Lemma derived_classes_not_ndarray (model : gmap string pyval) (a : ndarray) :
  derived_classes model ≠ PNdarray a.
Proof.
  unfold derived_classes.
  destruct (default _ _) as [| | |b| |]; try done.
  apply tolist_not_ndarray.
Qed.

(** ** check_model *)

(** The public attribute decides when it is there. *)
Lemma derived_classes_public (model : gmap string pyval) (pub : pyval) :
  model !! "classes_" = Some pub →
  derived_classes model
  = match pub with PNdarray a => tolist a | _ => pub end.
Proof. intros Hpub. unfold derived_classes. by rewrite Hpub. Qed.

Lemma derived_classes_delete_private (model : gmap string pyval) :
  is_Some (model !! "classes_") →
  derived_classes (delete "_classes" model) = derived_classes model.
Proof.
  intros [pub Hpub]. unfold derived_classes.
  rewrite (lookup_delete_ne model "_classes" "classes_") by done.
  by rewrite Hpub.
Qed.

(** C4. A model without a [predict] attribute is refused with the
    missing-predict failure, whatever else it has. *)
Theorem check_model_no_predict (model : gmap string pyval) :
  hasattr model "predict" = false →
  check_model model = Raise MissingPredictError.
Proof. intros Hno. unfold check_model. by rewrite Hno. Qed.

Lemma check_model_no_predict_witness :
  hasattr model_proba_only "predict" = false
  ∧ check_model model_proba_only = Raise MissingPredictError.
Proof.
  split; [reflexivity|].
  apply (check_model_no_predict model_proba_only). reflexivity.
Defined.

(** C1, as the code has it. When a model with [predict] has both
    [_classes] and [classes_], the classes that [check_model] answers come
    from the public [classes_]: the private [_classes] is read first and
    then overwritten.  With [public] the value of [classes_], an array
    turned into a list: a [public] that is not [None], not [[]] and not a
    pandas object is answered as the classes of a classification; an empty
    [public] gives the classes [[0, 1]] with [predict_proba] and a
    regression without; [None] gives the missing-classes failure with
    [predict_proba] and a regression without; a pandas object fails in its
    comparison.  The private value appears in none of the answers, and the
    answer is the one of the same model without its [_classes]. *)
Theorem check_model_public_preferred
    (model : gmap string pyval) (priv pub public : pyval) :
  hasattr model "predict" = true →
  model !! "_classes" = Some priv →
  model !! "classes_" = Some pub →
  public = match pub with PNdarray a => tolist a | _ => pub end →
  derived_classes model = public
  ∧ check_model model = check_model (delete "_classes" model)
  ∧ (public ≠ PNone → public ≠ PList [] → ¬ is_pandas public →
     check_model model = Return (AStr "classification", public))
  ∧ (public = PList [] →
     check_model model
     = if hasattr model "predict_proba"
       then Return (AStr "classification", PList [PInt 0; PInt 1])
       else Return (AStr "regression", PNone))
  ∧ (public = PNone →
     check_model model
     = if hasattr model "predict_proba"
       then Raise MissingClassesError
       else Return (AStr "regression", PNone))
  ∧ (is_pandas public → check_model model = Raise (ValueError LibraryMsg)).
Proof.
  intros Hpredict _ Hpub Hpublic.
  assert (derived_classes model = public) as Hderived.
  { rewrite Hpublic. by apply derived_classes_public. }
  assert (hasattr model "classes_" = true) as Hhas.
  { apply hasattr_true. eauto. }
  split; [done|]. split.
  { unfold check_model.
    rewrite !hasattr_delete_ne by done.
    rewrite derived_classes_delete_private by eauto.
    assert (hasattr (delete "_classes" model) "classes_" = true) as Hhas'.
    { by rewrite hasattr_delete_ne. }
    cbn [existsb]. by rewrite Hhas, Hhas'. }
  assert (check_model model
          = (_classes <-
               (_classes <-
                  (if hasattr model "predict_proba" then
                     empty <- py_eq_nil public;;
                     Return (if empty then PList [PInt 0; PInt 1]
                             else public)
                   else Return public);;
                if hasattr model "predict_proba" && py_is_None _classes
                then raise_ValueError no_classes_msg
                else Return _classes);;
             excluded <- py_in_None_nil _classes;;
             if negb excluded
             then Return (AStr "classification", _classes)
             else Return (AStr "regression", PNone))) as ->.
  { unfold check_model. rewrite Hpredict. cbn [existsb].
    by rewrite Hhas, orb_true_l, orb_true_r, Hderived. }
  assert (∀ a, public ≠ PNdarray a) as Hnd.
  { intros a. rewrite <- Hderived. apply derived_classes_not_ndarray. }
  clear Hderived Hpublic. unfold is_pandas. split_and!.
  - intros Hnone Hnil Hpandas.
    destruct public as [[]|[|v l]|d|a|s|df]; try done;
      try (by destruct (Hnd a));
      try (by destruct (hasattr model "predict_proba"));
      destruct Hpandas; eauto.
  - intros ->. by destruct (hasattr model "predict_proba").
  - intros ->. by destruct (hasattr model "predict_proba").
  - intros [[s ->]|[df ->]]; by destruct (hasattr model "predict_proba").
Qed.

Lemma check_model_public_preferred_witness :
  derived_classes model_both = PList [PInt 3; PInt 4]
  ∧ check_model model_both = check_model (delete "_classes" model_both)
  ∧ check_model model_both
    = Return (AStr "classification", PList [PInt 3; PInt 4]).
Proof.
  pose proof (check_model_public_preferred model_both
                (PList [PInt 1; PInt 2]) (PList [PInt 3; PInt 4])
                (PList [PInt 3; PInt 4]) eq_refl eq_refl eq_refl eq_refl)
    as (Hderived & Hsame & Hclasses & _).
  split; [exact Hderived|]. split; [exact Hsame|].
  apply Hclasses; [discriminate | discriminate |].
  intros [[s Hs]|[df Hdf]]; discriminate.
Defined.

(** C1 as stated fails: on a model with [predict], [_classes = [1, 2]] and
    [classes_ = [3, 4]] the answer is [[3, 4]], not what the private
    attribute alone gives. *)
Lemma check_model_private_not_preferred :
  hasattr model_both "predict" = true
  ∧ model_both !! "_classes" = Some (PList [PInt 1; PInt 2])
  ∧ model_both !! "classes_" = Some (PList [PInt 3; PInt 4])
  ∧ check_model model_both
    = Return (AStr "classification", PList [PInt 3; PInt 4])
  ∧ check_model (delete "classes_" model_both)
    = Return (AStr "classification", PList [PInt 1; PInt 2])
  ∧ check_model model_both ≠ check_model (delete "classes_" model_both).
Proof.
  repeat split; try (vm_compute; reflexivity).
  vm_compute. discriminate.
Qed.

(** C3, as the code has it. For a model with [predict] and
    [predict_proba]: if the derived classes are the empty list the answer is
    classification with classes [[0, 1]], and if they are [None] the model
    is refused with the missing-classes failure. *)
Theorem check_model_proba_classes (model : gmap string pyval) :
  hasattr model "predict" = true →
  hasattr model "predict_proba" = true →
  (derived_classes model = PList [] →
   check_model model
   = Return (AStr "classification", PList [PInt 0; PInt 1]))
  ∧ (derived_classes model = PNone →
     check_model model = Raise MissingClassesError).
Proof.
  intros Hpredict Hproba. unfold check_model.
  rewrite Hpredict, Hproba. cbn [orb].
  split; intros ->; reflexivity.
Qed.

Lemma check_model_proba_classes_witness :
  hasattr model_catboost "predict" = true
  ∧ hasattr model_catboost "predict_proba" = true
  ∧ derived_classes model_catboost = PList []
  ∧ check_model model_catboost
    = Return (AStr "classification", PList [PInt 0; PInt 1]).
Proof.
  split; [reflexivity|]. split; [reflexivity|]. split; [reflexivity|].
  exact (proj1 (check_model_proba_classes model_catboost eq_refl eq_refl)
           eq_refl).
Defined.

(** C3 as stated fails: a model with [predict_proba], no [predict] and no
    classes at all is refused for the missing [predict], not for the
    missing classes. *)
Lemma check_model_proba_without_predict :
  hasattr model_proba_only "predict_proba" = true
  ∧ derived_classes model_proba_only = PNone
  ∧ check_model model_proba_only = Raise MissingPredictError
  ∧ check_model model_proba_only ≠ Raise MissingClassesError.
Proof. repeat split. discriminate. Qed.

(** ** check_ypred *)

(** C2. Outside classification every [ypred] other than [None] is refused,
    with the message that it should not be specified; [x] is not looked
    at. *)
Theorem check_ypred_not_classification
    (case : atom) (x : DataFrame) (ypred : pyval) :
  case ≠ AStr "classification" →
  ypred ≠ PNone →
  check_ypred case x ypred
  = Raise (ValueError (Msg
      [Lit "ypred should not be specified in classification problems."]))
  ∧ InvalidYPredError (ValueError (Msg
      [Lit "ypred should not be specified in classification problems."])).
Proof.
  intros Hcase Hypred. split; [|by left].
  unfold check_ypred.
  apply py_is_None_false in Hypred as ->.
  apply atom_eq_str_false in Hcase as ->.
  reflexivity.
Qed.

Lemma check_ypred_not_classification_witness :
  check_ypred (AStr "regression") x_012
    (PSeries (series_on [AInt 0; AInt 1; AInt 2] float64))
  = Raise (ValueError (Msg
      [Lit "ypred should not be specified in classification problems."])).
Proof.
  refine (proj1 (check_ypred_not_classification (AStr "regression") x_012
                   (PSeries (series_on [AInt 0; AInt 1; AInt 2] float64)) _ _));
    discriminate.
Defined.

(** C7. In classification a Series or DataFrame [ypred] whose index is not
    the index of [x] is refused for the index, before its columns or its
    element type are looked at. *)
Theorem check_ypred_index_mismatch
    (x : DataFrame) (ypred : pyval) (index : list atom) :
  py_index ypred = Return index →
  index ≠ df_index x →
  check_ypred (AStr "classification") x ypred
  = Raise (ValueError (Msg
      [Lit "x_pred and y_pred should have the same index."]))
  ∧ InvalidYPredError (ValueError (Msg
      [Lit "x_pred and y_pred should have the same index."])).
Proof.
  intros Hindex Hne. split; [|by right; right; left].
  unfold check_ypred, index_equals.
  destruct ypred as [a| | | |s|df]; try discriminate Hindex;
    injection Hindex as <-; cbn;
    rewrite (bool_decide_false (_ = df_index x)) by done; reflexivity.
Qed.

(** The scenario of the specification: [x] is indexed by [0, 1, 2] and
    [ypred] by [0, 1, 3]. *)
Lemma check_ypred_index_mismatch_witness :
  df_index x_012 = [AInt 0; AInt 1; AInt 2]
  ∧ check_ypred (AStr "classification") x_012
      (PSeries (series_on [AInt 0; AInt 1; AInt 3] int64))
    = Raise (ValueError (Msg
        [Lit "x_pred and y_pred should have the same index."])).
Proof.
  split; [reflexivity|].
  refine (proj1 (check_ypred_index_mismatch x_012
                   (PSeries (series_on [AInt 0; AInt 1; AInt 3] int64))
                   [AInt 0; AInt 1; AInt 3] eq_refl _)).
  discriminate.
Defined.

(** What [to_frame] keeps of a series: the index, and one column with the
    element type and the entries. *)
Lemma to_frame_equivalent (s : Series) :
  df_index (to_frame s) = s_index s
  ∧ col_dtype <$> df_columns (to_frame s) = [s_dtype s]
  ∧ col_values <$> df_columns (to_frame s) = [s_values s].
Proof. done. Qed.

(** A Series of [float64] or [int64] on the index of [x] is answered as a
    one-column DataFrame. *)
Lemma check_ypred_series_coerced (x : DataFrame) (s : Series) :
  s_index s = df_index x →
  s_dtype s = float64 ∨ s_dtype s = int64 →
  check_ypred (AStr "classification") x (PSeries s)
  = Return (PDataFrame (to_frame s)).
Proof.
  intros Hindex Hdtype. unfold check_ypred, index_equals. cbn.
  rewrite (bool_decide_true (_ = df_index x)) by done.
  by destruct Hdtype as [-> | ->].
Qed.

(** The only element types that lines 138 and 141 let through. *)
Lemma dtype_in_float_int (d : dtype) :
  dtype_in d [np_float; np_int] = true ↔ d = float64 ∨ d = int64.
Proof.
  unfold dtype_in. cbn [existsb dtype_of_type].
  rewrite !orb_true_iff, !bool_decide_eq_true. intuition discriminate.
Qed.

(** A Series of any other element type on the index of [x] is refused. *)
Lemma check_ypred_series_other_dtype (x : DataFrame) (s : Series) :
  s_index s = df_index x →
  s_dtype s ≠ float64 →
  s_dtype s ≠ int64 →
  check_ypred (AStr "classification") x (PSeries s)
  = raise_ValueError ypred_dtype_msg.
Proof.
  intros Hindex Hfloat Hint. unfold check_ypred, index_equals. cbn.
  rewrite (bool_decide_true (_ = df_index x)) by done.
  rewrite (bool_decide_false (_ = float64)) by done.
  by rewrite (bool_decide_false (_ = int64)) by done.
Qed.

(** C8 on a Series of 32-bit integers: it holds integers only and is
    indexed like [x], and yet it is refused instead of being answered as a
    DataFrame, since [int32] is equal neither to [np.float] nor to
    [np.int]. *)
Theorem check_ypred_int32_series_refused :
  int_or_float (s_dtype (series_on [AInt 0; AInt 1; AInt 2] int32)) = true
  ∧ s_index (series_on [AInt 0; AInt 1; AInt 2] int32) = df_index x_012
  ∧ check_ypred (AStr "classification") x_012
      (PSeries (series_on [AInt 0; AInt 1; AInt 2] int32))
    = Raise (ValueError (Msg [Lit "y_pred must contain int or float only"])).
Proof. by repeat split. Qed.

(** ** validate_contributions *)

Lemma validate_contributions_other_case
    (case : atom) (classes contributions : pyval) :
  case ≠ AStr "regression" →
  case ≠ AStr "classification" →
  validate_contributions case classes contributions = Return tt.
Proof.
  intros Hreg Hcls. unfold validate_contributions.
  apply atom_eq_str_false in Hreg as ->.
  by apply atom_eq_str_false in Hcls as ->.
Qed.

(** C10. Outside the two recognised cases nothing is validated: every
    [classes] and every [contributions] pass. *)
Theorem validate_contributions_unrecognised_case
    (case : atom) (classes contributions : pyval) :
  case ≠ AStr "regression" →
  case ≠ AStr "classification" →
  validate_contributions case classes contributions = Return tt.
Proof. apply validate_contributions_other_case. Qed.

Lemma validate_contributions_unrecognised_case_witness :
  validate_contributions ANone PNone (PAtom (AInt 7)) = Return tt
  ∧ validate_contributions (AStr "multilabel") (PList [PInt 0; PInt 1])
      (PList []) = Return tt.
Proof.
  split.
  - apply (validate_contributions_unrecognised_case ANone); discriminate.
  - apply (validate_contributions_unrecognised_case (AStr "multilabel"));
      discriminate.
Defined.

Lemma isinstance_table (v : pyval) :
  isinstance v [cls_ndarray; cls_DataFrame] = true ↔ is_table v.
Proof.
  unfold is_table.
  destruct v;
    (split;
     [ intros H; first [vm_compute in H; discriminate H | eauto]
     | intros [[? H]|[? H]]; first [discriminate H | reflexivity] ]).
Qed.

Lemma isinstance_list (v : pyval) :
  isinstance v [cls_list] = true ↔ ∃ items, v = PList items.
Proof.
  destruct v;
    (split;
     [ intros H; first [vm_compute in H; discriminate H | eauto]
     | intros [? H]; first [discriminate H | reflexivity] ]).
Qed.

(** In classification, a list of contributions is checked against the
    number of classes. *)
Lemma validate_contributions_list (classes : pyval) (items : list pyval) :
  validate_contributions (AStr "classification") classes (PList items)
  = (len_classes <- py_len classes;;
     raise_if (bool_decide (length items ≠ len_classes)) contrib_length_msg).
Proof. reflexivity. Qed.

(** C9. [validate_contributions] fails with the invalid-contributions
    failure exactly in three situations: regression with contributions that
    are not a single array or DataFrame; classification with contributions
    that are not a list; classification with a list whose length is not the
    number of classes.  In particular classification with no contribution
    and classes [[0, 1]] fails, and regression with a 2-d array passes. *)
Theorem validate_contributions_spec
    (case : atom) (classes contributions : pyval) :
  ((∃ e, validate_contributions case classes contributions = Raise e
         ∧ InvalidContributionsError e)
   ↔ (case = AStr "regression" ∧ ¬ is_table contributions)
     ∨ (case = AStr "classification"
        ∧ ¬ ∃ items, contributions = PList items)
     ∨ (case = AStr "classification"
        ∧ ∃ items n, contributions = PList items
                     ∧ py_len classes = Return n ∧ length items ≠ n))
  ∧ validate_contributions (AStr "classification") (PList [PInt 0; PInt 1])
      (PList [])
    = Raise (ValueError (Msg [Lit contrib_length_msg]))
  ∧ (∀ rows : list (list atom),
       validate_contributions (AStr "regression") classes
         (PNdarray (NdArray ((λ row, NdArray (NdScalar <$> row)) <$> rows)))
       = Return tt).
Proof.
  split; [|by split].
  destruct (decide (case = AStr "regression")) as [->|Hreg].
  - (* regression: only the type of the contributions counts *)
    unfold validate_contributions.
    change (atom_eq_str (AStr "regression") "regression") with true.
    change (atom_eq_str (AStr "regression") "classification") with false.
    cbn [andb].
    destruct (isinstance contributions [cls_ndarray; cls_DataFrame]) eqn:Hty.
    + apply isinstance_table in Hty as Htable. cbn.
      split; [by intros (e & ? & _)|].
      intros [[_ Hno]|[[? _]|[? _]]]; done.
    + assert (¬ is_table contributions) as Hno.
      { rewrite <- isinstance_table. by rewrite Hty. }
      cbn. split; [by left|].
      intros _. eexists. split; [reflexivity|]. by left.
  - destruct (decide (case = AStr "classification")) as [->|Hcls].
    + destruct contributions as [a|items|d|a|s|df];
        try (split; [intros _; right; left; split; [done|]; by intros [? ?]
                    | intros _; eexists; split;
                      [reflexivity | by right; right]]).
      rewrite validate_contributions_list.
      destruct (py_len classes) as [n|e'] eqn:Hlen; cbn.
      * unfold raise_if. case_bool_decide as Hne.
        -- split; [|intros _; eexists; split; [reflexivity | by right; left]].
           intros _. right; right. split; [done|]. by exists items, n.
        -- split; [by intros (e & ? & _)|].
           intros [[? _]|[[_ Hno]|[_ (items' & n' & Heq & Hn & Hne')]]].
           ++ done.
           ++ destruct Hno. by exists items.
           ++ injection Heq as <-. injection Hn as <-. done.
      * (* [len(classes)] itself fails: the error is not of this kind *)
        split.
        -- intros (e & Heq & Hkind). injection Heq as <-.
           destruct classes as [[]| | |[]| |]; cbn in Hlen;
             try discriminate Hlen; injection Hlen as <-;
             by destruct Hkind as [|[|]].
        -- intros [[? _]|[[_ Hno]|[_ (items' & n' & _ & Hn & _)]]].
           ++ done.
           ++ destruct Hno. by exists items.
           ++ discriminate Hn.
    + rewrite validate_contributions_other_case by done.
      split; [by intros (e & ? & _)|].
      intros [[? _]|[[? _]|[? _]]]; done.
Qed.

(** ** check_label_dict *)

Lemma list_to_set_same_labels (l1 l2 : list atom) :
  list_to_set l1 =@{gset atom} list_to_set l2 ↔ same_labels l1 l2.
Proof.
  unfold same_labels. rewrite set_eq.
  by setoid_rewrite elem_of_list_to_set.
Qed.

(** In classification, once the classes and the keys are read, the guard is
    one comparison of sets. *)
Lemma check_label_dict_compare
    (label_dict classes : pyval) (labels : gset atom) (keys : list atom) :
  label_dict ≠ PNone →
  py_set classes = Return labels →
  py_keys label_dict = Return keys →
  check_label_dict label_dict (AStr "classification") classes
  = if bool_decide (labels ≠ list_to_set keys)
    then Raise (LabelMismatchError keys classes)
    else Return tt.
Proof.
  intros Hsome Hset Hkeys. unfold check_label_dict.
  apply py_is_None_false in Hsome as ->.
  change (atom_eq_str (AStr "classification") "classification") with true.
  cbn [negb andb]. by rewrite Hset, Hkeys.
Qed.

(** A dict against a list of labels. *)
Lemma check_label_dict_dict_list
    (items : list (atom * pyval)) (labels : list atom) :
  check_label_dict (PDict items) (AStr "classification")
    (PList (PAtom <$> labels))
  = if bool_decide (list_to_set labels ≠@{gset atom} list_to_set items.*1)
    then Raise (LabelMismatchError items.*1 (PList (PAtom <$> labels)))
    else Return tt.
Proof.
  apply check_label_dict_compare; [done| |done].
  apply py_set_list_of_atoms.
Qed.

(** C5. For a dict and a list of classes in classification,
    [check_label_dict] fails with the label-mismatch failure exactly when
    the keys and the classes are different sets, and passes exactly when
    they are the same set, in particular when the keys are the classes in
    another order.  Outside classification, and for [label_dict = None], it
    passes without looking at anything. *)
Theorem check_label_dict_spec
    (items : list (atom * pyval)) (labels : list atom)
    (label_dict classes : pyval) (case : atom) :
  (check_label_dict (PDict items) (AStr "classification")
     (PList (PAtom <$> labels))
   = Raise (LabelMismatchError items.*1 (PList (PAtom <$> labels)))
   ↔ ¬ same_labels items.*1 labels)
  ∧ (check_label_dict (PDict items) (AStr "classification")
       (PList (PAtom <$> labels)) = Return tt
     ↔ same_labels items.*1 labels)
  ∧ (items.*1 ≡ₚ labels →
     check_label_dict (PDict items) (AStr "classification")
       (PList (PAtom <$> labels)) = Return tt)
  ∧ (case ≠ AStr "classification" →
     check_label_dict label_dict case classes = Return tt)
  ∧ check_label_dict PNone case classes = Return tt.
Proof.
  assert (check_label_dict (PDict items) (AStr "classification")
            (PList (PAtom <$> labels)) = Return tt
          ↔ same_labels items.*1 labels) as Hpass.
  { rewrite check_label_dict_dict_list, <- list_to_set_same_labels.
    case_bool_decide as Hne; split; done. }
  split; [|split; [exact Hpass|split; [|split]]].
  - rewrite <- Hpass, check_label_dict_dict_list.
    case_bool_decide; split; done.
  - intros Hperm. apply Hpass. intros a. by rewrite Hperm.
  - intros Hcase. unfold check_label_dict.
    apply atom_eq_str_false in Hcase as ->. by rewrite andb_false_r.
  - reflexivity.
Qed.

(** ** check_mask_params *)

Lemma filter_nonempty {A : Type} (P : A → Prop) `{!∀ x, Decision (P x)}
    (l : list A) :
  length (filter P l) ≠ 0%nat ↔ ∃ x, x ∈ l ∧ P x.
Proof.
  split.
  - destruct (filter P l) as [|x l'] eqn:Hfilter; [done|]. intros _.
    assert (x ∈ filter P l) as Hx by (rewrite Hfilter; left).
    apply list_elem_of_filter in Hx as [HP Hin]. by exists x.
  - intros (x & Hin & HP).
    assert (x ∈ filter P l) as Hx by (by apply list_elem_of_filter).
    destruct (filter P l); [by apply elem_of_nil in Hx | done].
Qed.

(** C6. [check_mask_params] fails with the invalid-mask-parameters failure
    exactly when its argument is not a dict or has a key outside
    [features_to_hide], [threshold], [positive], [max_contrib]; it passes
    exactly on the dicts all of whose keys are among these, the empty dict
    included. *)
Theorem check_mask_params_spec (mask_params : pyval) :
  ((∃ e, check_mask_params mask_params = Raise e ∧ InvalidMaskParamsError e)
   ↔ (¬ ∃ items, mask_params = PDict items)
     ∨ ∃ items key, mask_params = PDict items ∧ key ∈ items.*1
         ∧ key ∉ [AStr "features_to_hide"; AStr "threshold";
                  AStr "positive"; AStr "max_contrib"])
  ∧ (check_mask_params mask_params = Return tt
     ↔ ∃ items, mask_params = PDict items
         ∧ items.*1 ⊆ [AStr "features_to_hide"; AStr "threshold";
                       AStr "positive"; AStr "max_contrib"])
  ∧ check_mask_params (PDict []) = Return tt.
Proof.
  split; [|split; [|reflexivity]].
  - destruct mask_params as [a|l|items|a|s|df];
      try (split; [intros _; left; by intros [? ?]
                  | intros _; eexists; split; [reflexivity | by left]]).
    unfold check_mask_params. case_bool_decide as Hbad.
    + split; [|intros _; eexists; split; [reflexivity | by right]].
      intros _. right. apply filter_nonempty in Hbad as (key & Hin & Hout).
      by exists items, key.
    + split; [by intros (e & ? & _)|].
      intros [Hno | (items' & key & Heq & Hin & Hout)].
      * destruct Hno. by exists items.
      * injection Heq as <-. exfalso. revert Hbad.
        apply filter_nonempty. by exists key.
  - destruct mask_params as [a|l|items|a|s|df];
      try (split; [done | by intros (? & ? & _)]).
    unfold check_mask_params. case_bool_decide as Hbad.
    + split; [done|]. intros (items' & Heq & Hsub). injection Heq as <-.
      apply filter_nonempty in Hbad as (key & Hin & Hout).
      destruct Hout. by apply Hsub.
    + split; [|done]. intros _. exists items. split; [done|].
      intros key Hin. apply dec_stable. intros Hout. revert Hbad.
      apply filter_nonempty. by exists key.
Qed.

(** * Further properties of the guards *)

(** ** check_model: the verdict *)

Lemma hasattr_insert_ne
    (model : gmap string pyval) (added name : string) (v : pyval) :
  added ≠ name → hasattr (<[added := v]> model) name = hasattr model name.
Proof. intros Hne. unfold hasattr. by rewrite lookup_insert_ne. Qed.

Lemma derived_classes_insert_ne
    (model : gmap string pyval) (added : string) (v : pyval) :
  added ≠ "_classes" → added ≠ "classes_" →
  derived_classes (<[added := v]> model) = derived_classes model.
Proof.
  intros Hpriv Hpub. unfold derived_classes.
  by rewrite !lookup_insert_ne.
Qed.

(** Without any of the three attributes that lines 45-46 look for, nothing
    is derived. *)
Lemma derived_classes_no_attribute (model : gmap string pyval) :
  existsb (λ attrib, hasattr model attrib) ["classes_"; "_classes"] = false →
  derived_classes model = PNone.
Proof.
  cbn [existsb]. rewrite !orb_false_iff, !hasattr_false.
  intros (Hpub & Hpriv & _). unfold derived_classes.
  by rewrite Hpub, Hpriv.
Qed.

(** Closes the conjuncts of a verdict on a given value of the classes. *)
Ltac verdict :=
  split_and!;
  solve [done | intros [[? ?]|[? ?]]; done | left; done | right; done].

(** The two shapes of an answer of [check_model]. *)
Lemma check_model_Return
    (model : gmap string pyval) (case : atom) (classes : pyval) :
  check_model model = Return (case, classes) →
  (case = AStr "regression" ∧ classes = PNone)
  ∨ (case = AStr "classification"
     ∧ classes ≠ PNone ∧ classes ≠ PList []
     ∧ (∀ a, classes ≠ PNdarray a) ∧ ¬ is_pandas classes
     ∧ (classes = derived_classes model
        ∨ (classes = PList [PInt 0; PInt 1]
           ∧ derived_classes model = PList []
           ∧ hasattr model "predict_proba" = true))).
Proof.
  unfold check_model, is_pandas.
  destruct (hasattr model "predict"); [|discriminate].
  pose proof (derived_classes_not_ndarray model) as Hnd.
  destruct (hasattr model "predict_proba") eqn:Hproba; cbn [orb].
  - destruct (derived_classes model) as [[]|[|v l]|d|a|s|df]; cbn;
      intros Heq; try discriminate Heq; try (by destruct (Hnd a));
      injection Heq as <- <-; right; verdict.
  - destruct (existsb _ _) eqn:Hattr.
    + destruct (derived_classes model) as [[]|[|v l]|d|a|s|df]; cbn;
        intros Heq; try discriminate Heq; try (by destruct (Hnd a));
        injection Heq as <- <-; try (by left); right; verdict.
    + cbn. intros Heq. injection Heq as <- <-. by left.
Qed.

(** X1. Whatever [check_model] answers is of one of two shapes: regression
    with classes [None], or classification with classes that are neither
    [None] nor [[]], nor an array or a pandas object; these classes are the
    derived ones, or [[0, 1]] put in for an empty list by line 50. *)
Theorem check_model_verdict
    (model : gmap string pyval) (case : atom) (classes : pyval) :
  check_model model = Return (case, classes) →
  (case = AStr "regression" ∧ classes = PNone)
  ∨ (case = AStr "classification"
     ∧ classes ≠ PNone ∧ classes ≠ PList []
     ∧ (∀ a, classes ≠ PNdarray a) ∧ ¬ is_pandas classes
     ∧ (classes = derived_classes model
        ∨ (classes = PList [PInt 0; PInt 1]
           ∧ derived_classes model = PList []
           ∧ hasattr model "predict_proba" = true))).
Proof. apply check_model_Return. Qed.

Lemma check_model_verdict_witness :
  (AStr "classification" = AStr "regression" ∧ PList [PInt 0; PInt 1] = PNone)
  ∨ (AStr "classification" = AStr "classification"
     ∧ PList [PInt 0; PInt 1] ≠ PNone ∧ PList [PInt 0; PInt 1] ≠ PList []
     ∧ (∀ a, PList [PInt 0; PInt 1] ≠ PNdarray a)
     ∧ ¬ is_pandas (PList [PInt 0; PInt 1])
     ∧ (PList [PInt 0; PInt 1] = derived_classes model_catboost
        ∨ (PList [PInt 0; PInt 1] = PList [PInt 0; PInt 1]
           ∧ derived_classes model_catboost = PList []
           ∧ hasattr model_catboost "predict_proba" = true))).
Proof.
  exact (check_model_verdict model_catboost (AStr "classification")
           (PList [PInt 0; PInt 1]) eq_refl).
Defined.

(** X2. [check_model] fails in three ways only: for the missing [predict];
    for the missing classes, when there is [predict_proba] and the derived
    classes are [None]; and inside pandas, when the classes attribute is a
    Series or a DataFrame, whose comparison has no truth value. *)
Theorem check_model_failures (model : gmap string pyval) (e : exn) :
  check_model model = Raise e →
  (e = MissingPredictError ∧ hasattr model "predict" = false)
  ∨ (e = MissingClassesError
     ∧ hasattr model "predict" = true
     ∧ hasattr model "predict_proba" = true
     ∧ derived_classes model = PNone)
  ∨ (e = ValueError LibraryMsg
     ∧ hasattr model "predict" = true
     ∧ is_pandas (derived_classes model)).
Proof.
  unfold check_model, is_pandas.
  destruct (hasattr model "predict"); [|intros [= <-]; by left].
  pose proof (derived_classes_not_ndarray model) as Hnd.
  destruct (hasattr model "predict_proba") eqn:Hproba; cbn [orb].
  - destruct (derived_classes model) as [[]|[|v l]|d|a|s|df]; cbn;
      intros Heq; try discriminate Heq; try (by destruct (Hnd a));
      injection Heq as <-; right;
      solve [ by left | right; split_and!; eauto ].
  - destruct (existsb _ _) eqn:Hattr; [|discriminate].
    destruct (derived_classes model) as [[]|[|v l]|d|a|s|df]; cbn;
      intros Heq; try discriminate Heq; try (by destruct (Hnd a));
      injection Heq as <-; right; right; split_and!; eauto.
Qed.

Lemma check_model_failures_witness :
  (MissingPredictError = MissingPredictError
   ∧ hasattr model_proba_only "predict" = false)
  ∨ (MissingPredictError = MissingClassesError
     ∧ hasattr model_proba_only "predict" = true
     ∧ hasattr model_proba_only "predict_proba" = true
     ∧ derived_classes model_proba_only = PNone)
  ∨ (MissingPredictError = ValueError LibraryMsg
     ∧ hasattr model_proba_only "predict" = true
     ∧ is_pandas (derived_classes model_proba_only)).
Proof.
  exact (check_model_failures model_proba_only MissingPredictError eq_refl).
Defined.

(** X3. The verdict is regression exactly for a model with [predict],
    without [predict_proba], whose derived classes are [None] or [[]]: a
    model with [predict_proba] is never taken for a regressor. *)
Theorem check_model_regression_iff (model : gmap string pyval) :
  check_model model = Return (AStr "regression", PNone)
  ↔ hasattr model "predict" = true
    ∧ hasattr model "predict_proba" = false
    ∧ (derived_classes model = PNone ∨ derived_classes model = PList []).
Proof.
  unfold check_model.
  destruct (hasattr model "predict"); [|split; [done | by intros [? _]]].
  pose proof (derived_classes_not_ndarray model) as Hnd.
  destruct (hasattr model "predict_proba") eqn:Hproba; cbn [orb].
  - split; [|by intros (_ & ? & _)].
    destruct (derived_classes model) as [[]|[|v l]|d|a|s|df]; cbn;
      try discriminate; by destruct (Hnd a).
  - destruct (existsb _ _) eqn:Hattr.
    + destruct (derived_classes model) as [[]|[|v l]|d|a|s|df]; cbn;
        try (by destruct (Hnd a));
        (split; [intros Heq; try discriminate Heq; split_and!; eauto
                | intros (_ & _ & [Heq|Heq]); by try discriminate Heq]).
    + apply derived_classes_no_attribute in Hattr as ->. cbn.
      split; [intros _; split_and!; eauto | done].
Qed.

(** X4. The verdict depends on the four attributes [predict],
    [predict_proba], [classes_] and [_classes] only: setting any other
    attribute of the model changes nothing. *)
Theorem check_model_other_attribute
    (model : gmap string pyval) (name : string) (v : pyval) :
  name ∉ ["predict"; "predict_proba"; "classes_"; "_classes"] →
  check_model (<[name := v]> model) = check_model model.
Proof.
  intros Hname.
  apply not_elem_of_cons in Hname as [Hpredict Hname].
  apply not_elem_of_cons in Hname as [Hproba Hname].
  apply not_elem_of_cons in Hname as [Hpub Hname].
  apply not_elem_of_cons in Hname as [Hpriv _].
  unfold check_model. cbn [existsb].
  rewrite !hasattr_insert_ne by done.
  by rewrite derived_classes_insert_ne by done.
Qed.

Lemma check_model_other_attribute_witness :
  check_model (<["n_features_in_" := PInt 12]> model_catboost)
  = check_model model_catboost.
Proof.
  apply (check_model_other_attribute model_catboost "n_features_in_").
  intros Hin. repeat (apply elem_of_cons in Hin as [Heq|Hin];
                      [discriminate Heq|]).
  by apply elem_of_nil in Hin.
Defined.

(** X5. A model with [predict] whose [classes_] is a one-dimensional array
    of at least one label is a classifier, and its classes are the labels
    of the array as a plain list, with or without [predict_proba] and
    whatever [_classes] is. *)
Theorem check_model_array_classes
    (model : gmap string pyval) (labels : list atom) :
  hasattr model "predict" = true →
  model !! "classes_" = Some (PNdarray (NdArray (NdScalar <$> labels))) →
  labels ≠ [] →
  check_model model = Return (AStr "classification", PList (PAtom <$> labels)).
Proof.
  intros Hpredict Hpub Hne. unfold check_model. rewrite Hpredict.
  assert (hasattr model "classes_" = true) as Hhas.
  { apply hasattr_true. eauto. }
  cbn [existsb]. rewrite Hhas, orb_true_l, orb_true_r.
  rewrite (derived_classes_public _ _ Hpub), tolist_1d.
  destruct labels as [|a labels]; [done|].
  rewrite fmap_cons. by destruct (hasattr model "predict_proba").
Qed.

Lemma check_model_array_classes_witness :
  check_model
    (<["classes_" := PNdarray (NdArray (NdScalar <$> [AStr "no"; AStr "yes"]))]>
       model_both)
  = Return (AStr "classification", PList (PAtom <$> [AStr "no"; AStr "yes"])).
Proof.
  apply (check_model_array_classes _ [AStr "no"; AStr "yes"]);
    [reflexivity | reflexivity | discriminate].
Defined.

(** ** check_label_dict: what is read of the classes *)

Lemma py_set_error (v : pyval) (e : exn) : py_set v = Raise e → e = TypeError.
Proof.
  unfold py_set. destruct (py_iter v) as [items|e'] eqn:Hiter; cbn.
  - assert (∀ l, mapM py_hashable l = Raise e → e = TypeError) as Hmap.
    { induction l as [|w l IH]; [done|]. cbn.
      destruct w; cbn; try (by intros [= <-]).
      destruct (mapM py_hashable l); cbn; [done|].
      intros [= <-]. by apply IH. }
    destruct (mapM py_hashable items) eqn:Hitems; cbn; [done|].
    intros [= <-]. by apply (Hmap items).
  - intros [= <-].
    destruct v as [[]| | |[]| |]; cbn in Hiter; by try injection Hiter as <-.
Qed.

(** When the guard passes. *)
Lemma check_label_dict_pass_iff (label_dict classes : pyval) (case : atom) :
  check_label_dict label_dict case classes = Return tt
  ↔ label_dict = PNone
    ∨ case ≠ AStr "classification"
    ∨ ∃ keys, py_keys label_dict = Return keys
              ∧ py_set classes = Return (list_to_set keys).
Proof.
  unfold check_label_dict.
  destruct (py_is_None label_dict) eqn:Hnone; cbn [negb andb].
  { apply py_is_None_true in Hnone. split; [by left | done]. }
  apply py_is_None_false in Hnone.
  destruct (atom_eq_str case "classification") eqn:Hcase.
  2:{ apply atom_eq_str_false in Hcase. split; [by right; left | done]. }
  apply atom_eq_str_true in Hcase.
  destruct (py_set classes) as [labels|e] eqn:Hset; cbn.
  - destruct (py_keys label_dict) as [keys|e] eqn:Hkeys; cbn.
    + case_bool_decide as Hne.
      * split; [done|]. intros [?|[?|(keys' & [= <-] & [= ->])]]; done.
      * split; [|done]. intros _. right; right. exists keys.
        split; [done|]. by rewrite Hne.
    + split; [done|]. intros [?|[?|(keys' & ? & _)]]; done.
  - split; [done|]. intros [?|[?|(keys' & _ & ?)]]; done.
Qed.

(** X6. In classification, with a [label_dict], classes that cannot be
    made a set (not iterable, as [None] is, or holding an unhashable item)
    end the guard with a [TypeError], before the keys of [label_dict] are
    read and whatever [label_dict] is. *)
Theorem check_label_dict_classes_error
    (label_dict classes : pyval) (e : exn) :
  label_dict ≠ PNone →
  py_set classes = Raise e →
  check_label_dict label_dict (AStr "classification") classes
  = Raise TypeError.
Proof.
  intros Hsome Hset. unfold check_label_dict.
  apply py_is_None_false in Hsome as ->.
  rewrite Hset. by rewrite (py_set_error _ _ Hset).
Qed.

Lemma check_label_dict_classes_error_witness :
  check_label_dict (PList []) (AStr "classification") PNone = Raise TypeError
  ∧ check_label_dict (PDict [(AInt 0, PStr "no")]) (AStr "classification")
      (PList [PList [PInt 0]]) = Raise TypeError.
Proof.
  split.
  - apply (check_label_dict_classes_error (PList []) PNone TypeError);
      [discriminate | reflexivity].
  - apply (check_label_dict_classes_error _ (PList [PList [PInt 0]])
             TypeError); [discriminate | reflexivity].
Defined.

(** X7. The guard reads the classes as a set only: two values of the
    classes with the same set of labels (repeated or reordered labels, a
    list or an array) pass together or not at all. *)
Theorem check_label_dict_same_set
    (label_dict classes classes' : pyval) (case : atom) (labels : gset atom) :
  py_set classes = Return labels →
  py_set classes' = Return labels →
  check_label_dict label_dict case classes = Return tt
  ↔ check_label_dict label_dict case classes' = Return tt.
Proof.
  intros Hset Hset'. rewrite !check_label_dict_pass_iff.
  by rewrite Hset, Hset'.
Qed.

Lemma check_label_dict_same_set_witness :
  check_label_dict (PDict [(AInt 0, PStr "no"); (AInt 1, PStr "yes")])
    (AStr "classification") (PList [PInt 1; PInt 0; PInt 1]) = Return tt
  ↔ check_label_dict (PDict [(AInt 0, PStr "no"); (AInt 1, PStr "yes")])
      (AStr "classification")
      (PNdarray (NdArray [NdScalar (AInt 0); NdScalar (AInt 1)])) = Return tt.
Proof.
  apply (check_label_dict_same_set _ _ _ _ {[AInt 0; AInt 1]}).
  - vm_compute. f_equal.
  - vm_compute. f_equal.
Defined.

(** ** Arrays of classes and their lists *)

Lemma py_set_tolist (items : list ndarray) :
  py_set (tolist (NdArray items)) = py_set (PNdarray (NdArray items)).
Proof.
  unfold py_set. cbn [tolist py_iter bind]. f_equal.
  induction items as [|sub items IH]; [done|].
  rewrite !fmap_cons. cbn [mapM].
  destruct sub as [x|subitems]; cbn; [|done].
  by rewrite IH.
Qed.

Lemma py_len_tolist (items : list ndarray) :
  py_len (tolist (NdArray items)) = py_len (PNdarray (NdArray items)).
Proof. cbn. by rewrite length_fmap. Qed.

(** X8. Line 49 loses nothing that the later guards read: on an array of
    classes with at least one axis and on its [tolist],
    [validate_contributions] answers the same and [check_label_dict] passes
    alike. *)
Theorem classes_array_or_list
    (items : list ndarray) (label_dict contributions : pyval) (case : atom) :
  validate_contributions case (PNdarray (NdArray items)) contributions
  = validate_contributions case (tolist (NdArray items)) contributions
  ∧ (check_label_dict label_dict case (PNdarray (NdArray items)) = Return tt
     ↔ check_label_dict label_dict case (tolist (NdArray items)) = Return tt).
Proof.
  split.
  - unfold validate_contributions. by rewrite py_len_tolist.
  - rewrite !check_label_dict_pass_iff. by rewrite py_set_tolist.
Qed.

(** ** check_mask_params: the keys as a set *)

Lemma check_mask_params_dict (items : list (atom * pyval)) :
  check_mask_params (PDict items)
  = if bool_decide (Forall (λ key, key ∈ AStr <$> conform_arguments) items.*1)
    then Return tt
    else raise_ValueError mask_keys_msg.
Proof.
  unfold check_mask_params.
  case_bool_decide as Hbad; case_bool_decide as Hall; try done.
  - apply filter_nonempty in Hbad as (key & Hin & Hout).
    rewrite Forall_forall in Hall. destruct Hout. by apply Hall.
  - destruct Hall. apply Forall_forall. intros key Hin.
    apply dec_stable. intros Hout. revert Hbad.
    apply filter_nonempty. by exists key.
Qed.

(** X9. [check_mask_params] reads the keys of the dict as a set: two dicts
    with the same keys, whatever their values, the order and the number of
    their entries, get the same answer. *)
Theorem check_mask_params_same_keys (items items' : list (atom * pyval)) :
  (∀ key, key ∈ items.*1 ↔ key ∈ items'.*1) →
  check_mask_params (PDict items) = check_mask_params (PDict items').
Proof.
  intros Hkeys. rewrite !check_mask_params_dict.
  erewrite bool_decide_ext; [done|].
  rewrite !Forall_forall. by setoid_rewrite Hkeys.
Qed.

Lemma check_mask_params_same_keys_witness :
  check_mask_params
    (PDict [(AStr "threshold", PInt 2); (AStr "positive", PInt 1)])
  = check_mask_params
      (PDict [(AStr "positive", PNone); (AStr "threshold", PList [])]).
Proof.
  apply check_mask_params_same_keys. intros key.
  cbn. rewrite !elem_of_cons. tauto.
Defined.

(** X10. Two dicts put together pass exactly when each of them passes: a
    conform dict stays conform when entries are taken out, and no entry
    makes up for a key that is not conform. *)
Theorem check_mask_params_app (items items' : list (atom * pyval)) :
  check_mask_params (PDict (items ++ items')) = Return tt
  ↔ check_mask_params (PDict items) = Return tt
    ∧ check_mask_params (PDict items') = Return tt.
Proof.
  rewrite !check_mask_params_dict, fmap_app.
  repeat case_bool_decide; rewrite ?Forall_app in *; intuition discriminate.
Qed.

(** ** check_ypred: what comes out *)

Lemma dtypes_getitem0_Return (df : DataFrame) (d : dtype) :
  dtypes_getitem0 df = Return d →
  ∃ c rest, df_columns df = c :: rest ∧ d = col_dtype c
            ∧ (is_int_label (col_name c) = true → col_name c = AInt 0).
Proof.
  unfold dtypes_getitem0. destruct (df_columns df) as [|c rest]; [done|].
  destruct (is_int_label (col_name c)) eqn:Hint; cbn [andb].
  - case_bool_decide as Hzero; cbn; [|done].
    intros [= <-]. by exists c, rest.
  - intros [= <-]. exists c, rest. by rewrite Hint.
Qed.

(** The two ways through [check_ypred] for a [ypred] that is not [None]. *)
Lemma check_ypred_Return
    (case : atom) (x : DataFrame) (ypred r : pyval) :
  check_ypred case x ypred = Return r →
  ypred ≠ PNone →
  case = AStr "classification"
  ∧ ((∃ s, ypred = PSeries s ∧ r = PDataFrame (to_frame s)
           ∧ s_index s = df_index x
           ∧ dtype_in (s_dtype s) [np_float; np_int] = true)
     ∨ (∃ df c, ypred = PDataFrame df ∧ r = PDataFrame df
                ∧ df_index df = df_index x
                ∧ df_columns df = [c]
                ∧ (is_int_label (col_name c) = true → col_name c = AInt 0)
                ∧ dtype_in (col_dtype c) [np_float; np_int] = true)).
Proof.
  intros Hret Hsome. unfold check_ypred in Hret.
  apply py_is_None_false in Hsome as Hnone. rewrite Hnone in Hret.
  cbn [negb] in Hret.
  destruct (atom_eq_str case "classification") eqn:Hcase;
    [|by cbn in Hret].
  apply atom_eq_str_true in Hcase. split; [done|].
  destruct ypred as [a|l|d|a|s|df]; try (by cbn -[dtype_in dtypes_getitem0 to_frame] in Hret).
  - left. exists s.
    change (isinstance (PSeries s) [cls_DataFrame; cls_Series]) with true
      in Hret.
    cbn -[dtype_in dtypes_getitem0 to_frame] in Hret.
    unfold index_equals in Hret.
    case_bool_decide as Hindex; [|done]. cbn -[dtype_in dtypes_getitem0 to_frame] in Hret.
    destruct (dtype_in (s_dtype s) [np_float; np_int]) eqn:Hdtype; [|done].
    by injection Hret as <-.
  - right.
    change (isinstance (PDataFrame df) [cls_DataFrame; cls_Series]) with true
      in Hret.
    cbn -[dtype_in dtypes_getitem0 to_frame] in Hret.
    unfold index_equals in Hret.
    case_bool_decide as Hindex; [|done]. cbn -[dtype_in dtypes_getitem0 to_frame] in Hret.
    case_bool_decide as Hcols; [done|]. cbn -[dtype_in dtypes_getitem0 to_frame] in Hret.
    destruct (dtypes_getitem0 df) as [d|e] eqn:Hget; [|done]. cbn -[dtype_in dtypes_getitem0 to_frame] in Hret.
    destruct (dtype_in d [np_float; np_int]) eqn:Hdtype; [|done].
    injection Hret as <-.
    apply dtypes_getitem0_Return in Hget as (c & rest & Hcolumns & -> & Hname).
    exists df, c. split_and!; try done.
    rewrite Hcolumns in Hcols |- *. destruct rest; [done|].
    cbn in Hcols. lia.
Qed.

(** X11. What [check_ypred] hands back is its argument, unless that is a
    Series, which comes back as the DataFrame [to_frame] makes of it: the
    result is never a Series, and never anything built from [x]. *)
Theorem check_ypred_result
    (case : atom) (x : DataFrame) (ypred r : pyval) :
  check_ypred case x ypred = Return r →
  r = match ypred with
      | PSeries s => PDataFrame (to_frame s)
      | _ => ypred
      end.
Proof.
  intros Hret. destruct (py_is_None ypred) eqn:Hnone.
  - apply py_is_None_true in Hnone as ->. by injection Hret as <-.
  - apply py_is_None_false in Hnone as Hsome.
    destruct (check_ypred_Return _ _ _ _ Hret Hsome)
      as [_ [(s & -> & -> & _)|(df & c & -> & -> & _)]]; done.
Qed.

Lemma check_ypred_result_witness :
  PDataFrame (to_frame (series_on [AInt 0; AInt 1; AInt 2] float64))
  = PDataFrame (to_frame (series_on [AInt 0; AInt 1; AInt 2] float64)).
Proof.
  exact (check_ypred_result (AStr "classification") x_012
           (PSeries (series_on [AInt 0; AInt 1; AInt 2] float64)) _ eq_refl).
Defined.

(** X12. Whatever [check_ypred] lets through, other than [None], is in
    classification a DataFrame of exactly one column, indexed like [x],
    whose element type is [float64] or [int64]. *)
Theorem check_ypred_guarantee
    (case : atom) (x : DataFrame) (ypred r : pyval) :
  check_ypred case x ypred = Return r →
  ypred ≠ PNone →
  case = AStr "classification"
  ∧ ∃ df c, r = PDataFrame df
            ∧ df_index df = df_index x
            ∧ df_columns df = [c]
            ∧ (col_dtype c = float64 ∨ col_dtype c = int64).
Proof.
  intros Hret Hsome.
  destruct (check_ypred_Return _ _ _ _ Hret Hsome)
    as [Hcase [(s & -> & -> & Hindex & Hdtype)
              |(df & c & -> & -> & Hindex & Hcols & _ & Hdtype)]];
    (split; [done|]); apply dtype_in_float_int in Hdtype.
  - by eexists (to_frame s), _.
  - by exists df, c.
Qed.

Lemma check_ypred_guarantee_witness :
  AStr "classification" = AStr "classification"
  ∧ ∃ df c, PDataFrame (to_frame (series_on [AInt 0; AInt 1; AInt 2] int64))
            = PDataFrame df
            ∧ df_index df = df_index x_012
            ∧ df_columns df = [c]
            ∧ (col_dtype c = float64 ∨ col_dtype c = int64).
Proof.
  refine (check_ypred_guarantee (AStr "classification") x_012
            (PSeries (series_on [AInt 0; AInt 1; AInt 2] int64)) _ eq_refl _).
  discriminate.
Defined.

(** X13. In classification a [ypred] that is neither [None], nor a Series,
    nor a DataFrame (a list, a numpy array, a dict, a scalar) is refused for
    its type, whatever [x] is: predictions in a plain array must be wrapped
    first. *)
Theorem check_ypred_not_a_table (x : DataFrame) (ypred : pyval) :
  ypred ≠ PNone →
  (∀ s, ypred ≠ PSeries s) →
  (∀ df, ypred ≠ PDataFrame df) →
  check_ypred (AStr "classification") x ypred
  = raise_ValueError "y_pred must be a one column pd.Dataframe or pd.Series.".
Proof.
  intros Hsome Hseries Hframe. unfold check_ypred.
  apply py_is_None_false in Hsome as ->.
  destruct ypred as [a|l|d|a|s|df]; try reflexivity.
  - by destruct (Hseries s).
  - by destruct (Hframe df).
Qed.

Lemma check_ypred_not_a_table_witness :
  check_ypred (AStr "classification") x_012
    (PNdarray (NdArray [NdScalar (AInt 1); NdScalar (AInt 0); NdScalar (AInt 1)]))
  = raise_ValueError "y_pred must be a one column pd.Dataframe or pd.Series.".
Proof.
  apply check_ypred_not_a_table; discriminate.
Defined.

(** X14. In classification a DataFrame indexed like [x] with two columns or
    more is refused for its shape, whatever the element types of its
    columns. *)
Theorem check_ypred_many_columns (x df : DataFrame) :
  df_index df = df_index x →
  (1 < length (df_columns df))%nat →
  check_ypred (AStr "classification") x (PDataFrame df)
  = raise_ValueError "y_pred must be a one column pd.Dataframe or pd.Series.".
Proof.
  intros Hindex Hcols. unfold check_ypred, index_equals.
  change (isinstance (PDataFrame df) [cls_DataFrame; cls_Series]) with true.
  cbn -[dtype_in dtypes_getitem0].
  rewrite (bool_decide_true (_ = df_index x)) by done.
  cbn -[dtype_in dtypes_getitem0].
  by rewrite bool_decide_true by done.
Qed.

Lemma check_ypred_many_columns_witness :
  check_ypred (AStr "classification") x_012
    (PDataFrame {| df_index := [AInt 0; AInt 1; AInt 2];
                   df_columns := df_columns x_012 ++ df_columns x_012 |})
  = raise_ValueError "y_pred must be a one column pd.Dataframe or pd.Series.".
Proof.
  apply (check_ypred_many_columns x_012); [reflexivity | cbn; lia].
Defined.

(** X15. Checking twice changes nothing when the Series that went in has
    no name or is named by a string: what [check_ypred] has let through is
    then let through again, unchanged (the only column of the new frame is
    labelled [0] or by that string, and [dtypes[0]] finds it).  A DataFrame
    that went in comes back as it is and passes again. *)
Theorem check_ypred_idempotent
    (case : atom) (x : DataFrame) (ypred r : pyval) :
  check_ypred case x ypred = Return r →
  (∀ s, ypred = PSeries s →
        s_name s = ANone ∨ ∃ name, s_name s = AStr name) →
  check_ypred case x r = Return r.
Proof.
  intros Hret Hname. destruct (py_is_None ypred) eqn:Hnone.
  { apply py_is_None_true in Hnone as ->. by injection Hret as <-. }
  apply py_is_None_false in Hnone as Hsome.
  destruct (check_ypred_Return _ _ _ _ Hret Hsome)
    as [-> [(s & -> & -> & Hindex & Hdtype)
           |(df & c & -> & -> & Hindex & Hcols & Hlabel & Hdtype)]];
    [|done].
  unfold check_ypred, index_equals.
  change (isinstance (PDataFrame (to_frame s)) [cls_DataFrame; cls_Series])
    with true.
  cbn -[dtype_in].
  rewrite (bool_decide_true (_ = df_index x)) by done.
  cbn -[dtype_in].
  assert (is_int_label (if bool_decide (s_name s = ANone)
                        then AInt 0 else s_name s)
          && negb (bool_decide ((if bool_decide (s_name s = ANone)
                                 then AInt 0 else s_name s) = AInt 0))
          = false) as ->.
  { destruct (Hname s eq_refl) as [->|[name ->]]; done. }
  cbn -[dtype_in]. by rewrite Hdtype.
Qed.

Lemma check_ypred_idempotent_witness :
  check_ypred (AStr "classification") x_012
    (PDataFrame (to_frame (series_on [AInt 0; AInt 1; AInt 2] float64)))
  = Return (PDataFrame
              (to_frame (series_on [AInt 0; AInt 1; AInt 2] float64))).
Proof.
  apply (check_ypred_idempotent (AStr "classification") x_012
           (PSeries (series_on [AInt 0; AInt 1; AInt 2] float64)));
    [reflexivity|].
  intros s [= <-]. right. by exists "pred".
Defined.

(** X16. On a Series [check_ypred] fails in exactly three situations, tried
    in this order and each with its own message: the case is not
    classification; else the index is not the index of [x]; else the
    element type is neither [float64] nor [int64].  In every other
    situation, and only then, the Series comes back as a DataFrame. *)
Theorem check_ypred_series_outcomes
    (case : atom) (x : DataFrame) (s : Series) (e : exn) (r : pyval) :
  (check_ypred case x (PSeries s) = Raise e
   ↔ (case ≠ AStr "classification"
      ∧ e = ValueError (Msg
          [Lit "ypred should not be specified in classification problems."]))
     ∨ (case = AStr "classification" ∧ s_index s ≠ df_index x
        ∧ e = ValueError (Msg
            [Lit "x_pred and y_pred should have the same index."]))
     ∨ (case = AStr "classification" ∧ s_index s = df_index x
        ∧ s_dtype s ≠ float64 ∧ s_dtype s ≠ int64
        ∧ e = ValueError (Msg [Lit "y_pred must contain int or float only"])))
  ∧ (check_ypred case x (PSeries s) = Return r
     ↔ case = AStr "classification" ∧ s_index s = df_index x
       ∧ (s_dtype s = float64 ∨ s_dtype s = int64)
       ∧ r = PDataFrame (to_frame s)).
Proof.
  unfold check_ypred, index_equals.
  change (isinstance (PSeries s) [cls_DataFrame; cls_Series]) with true.
  cbn -[dtype_in to_frame].
  destruct (atom_eq_str case "classification") eqn:Hcase; cbn -[dtype_in to_frame].
  2:{ apply atom_eq_str_false in Hcase. split.
      - split; [intros [= <-]; by left|].
        intros [[_ ->]|[[? _]|[? _]]]; done.
      - split; [done | by intros [? _]]. }
  apply atom_eq_str_true in Hcase.
  case_bool_decide as Hindex; cbn -[dtype_in to_frame].
  2:{ split.
      - split; [intros [= <-]; by right; left|].
        intros [[? _]|[(_ & _ & ->)|(_ & ? & _)]]; done.
      - split; [done | by intros (_ & ? & _)]. }
  destruct (dtype_in (s_dtype s) [np_float; np_int]) eqn:Hdtype;
    cbn -[to_frame].
  - apply dtype_in_float_int in Hdtype. split.
    + split; [done|].
      intros [[? _]|[(_ & ? & _)|(_ & _ & Hfloat & Hint & _)]]; try done.
      by destruct Hdtype.
    + split; [intros [= <-]; done | by intros (_ & _ & _ & ->)].
  - assert (s_dtype s ≠ float64 ∧ s_dtype s ≠ int64) as [Hfloat Hint].
    { split; intros Heq;
        assert (dtype_in (s_dtype s) [np_float; np_int] = true) as Hin
          by (apply dtype_in_float_int; eauto);
        congruence. }
    split.
    + split; [intros [= <-]; by right; right|].
      intros [[? _]|[(_ & ? & _)|(_ & _ & _ & _ & ->)]]; done.
    + split; [done|]. intros (_ & _ & [?|?] & _); done.
Qed.

(** ** validate_contributions: what is read of its arguments *)

Lemma py_len_error (v : pyval) (e : exn) : py_len v = Raise e → e = TypeError.
Proof. destruct v as [[]| | |[]| |]; cbn; by try intros [= <-]. Qed.

(** X17. In classification, with a list of contributions, classes that
    have no length ([None], a number, a 0-d array) end the guard with a
    [TypeError] rather than with one of its own messages. *)
Theorem validate_contributions_classes_error
    (classes : pyval) (items : list pyval) (e : exn) :
  py_len classes = Raise e →
  validate_contributions (AStr "classification") classes (PList items)
  = Raise TypeError.
Proof.
  intros Hlen. rewrite validate_contributions_list, Hlen.
  by rewrite (py_len_error _ _ Hlen).
Qed.

Lemma validate_contributions_classes_error_witness :
  validate_contributions (AStr "classification") PNone
    (PList [PDataFrame x_012; PDataFrame x_012]) = Raise TypeError.
Proof.
  apply (validate_contributions_classes_error PNone _ TypeError).
  reflexivity.
Defined.

(** X18. Of a list of contributions only the length is read: two lists of
    the same length get the same answer in every case, whatever their
    items are. *)
Theorem validate_contributions_length_only
    (case : atom) (classes : pyval) (items items' : list pyval) :
  length items = length items' →
  validate_contributions case classes (PList items)
  = validate_contributions case classes (PList items').
Proof.
  intros Hlen. unfold validate_contributions.
  change (isinstance (PList items) [cls_ndarray; cls_DataFrame])
    with (isinstance (PList items') [cls_ndarray; cls_DataFrame]).
  change (isinstance (PList items) [cls_list])
    with (isinstance (PList items') [cls_list]).
  cbn [py_len]. by rewrite Hlen.
Qed.

Lemma validate_contributions_length_only_witness :
  validate_contributions (AStr "classification") (PList [PInt 0; PInt 1])
    (PList [PDataFrame x_012; PDataFrame x_012])
  = validate_contributions (AStr "classification") (PList [PInt 0; PInt 1])
      (PList [PNone; PStr "shap"]).
Proof.
  by apply (validate_contributions_length_only (AStr "classification")).
Defined.

(** X19. No value of the contributions passes both in regression and in
    classification: regression wants an array or a DataFrame,
    classification a list. *)
Theorem validate_contributions_exclusive
    (classes classes' contributions : pyval) :
  ¬ (validate_contributions (AStr "regression") classes contributions
     = Return tt
     ∧ validate_contributions (AStr "classification") classes' contributions
       = Return tt).
Proof.
  intros [Hreg Hcls]. by destruct contributions.
Qed.

(** X20. Together with [check_model]: for a binary catboost-like model
    ([predict], [predict_proba], derived classes [[]]) the verdict of
    [check_model] makes [validate_contributions] accept a list of
    contributions exactly when it has two items. *)
Theorem check_model_then_contributions_binary
    (model : gmap string pyval) (items : list pyval) :
  hasattr model "predict" = true →
  hasattr model "predict_proba" = true →
  derived_classes model = PList [] →
  (verdict <- check_model model;;
   validate_contributions verdict.1 verdict.2 (PList items)) = Return tt
  ↔ length items = 2%nat.
Proof.
  intros Hpredict Hproba Hderived. unfold check_model.
  rewrite Hpredict, Hproba, Hderived. cbn -[validate_contributions].
  rewrite validate_contributions_list. cbn. unfold raise_if.
  case_bool_decide; split; done.
Qed.

Lemma check_model_then_contributions_binary_witness :
  (verdict <- check_model model_catboost;;
   validate_contributions verdict.1 verdict.2
     (PList [PDataFrame x_012; PDataFrame x_012])) = Return tt
  ↔ length [PDataFrame x_012; PDataFrame x_012] = 2%nat.
Proof.
  by apply (check_model_then_contributions_binary model_catboost).
Defined.

(** X21. Together with [check_model]: on its verdict
    [validate_contributions] fails with one of its own messages, unless the
    classes attribute of the model was a scalar without length; in
    particular the [None] classes of a regressor are never measured. *)
Theorem check_model_then_contributions_failures
    (model : gmap string pyval) (case : atom) (classes contributions : pyval)
    (e : exn) :
  check_model model = Return (case, classes) →
  validate_contributions case classes contributions = Raise e →
  InvalidContributionsError e
  ∨ (e = TypeError ∧ case = AStr "classification"
     ∧ ∃ a, classes = PAtom a ∧ a ≠ ANone).
Proof.
  intros Hverdict Hfail.
  destruct (check_model_Return _ _ _ Hverdict)
    as [[-> ->]|(-> & Hnone & _ & Hnd & Hpd & _)].
  - left. destruct contributions; try done; injection Hfail as <-; by left.
  - destruct contributions as [a|items|d|a|s|df];
      try (injection Hfail as <-; left; by right; right).
    rewrite validate_contributions_list in Hfail.
    destruct (py_len classes) as [n|e'] eqn:Hlen; cbn in Hfail.
    + left. unfold raise_if in Hfail. case_bool_decide; [|done].
      injection Hfail as <-. by right; left.
    + injection Hfail as <-. right.
      rewrite (py_len_error _ _ Hlen). split_and!; try done.
      destruct classes as [a| | |a| |]; try done.
      * exists a. split; [done|]. by intros ->.
      * by destruct (Hnd a).
Qed.

Lemma check_model_then_contributions_failures_witness :
  InvalidContributionsError (ValueError (Msg [Lit contrib_regression_msg]))
  ∨ (ValueError (Msg [Lit contrib_regression_msg]) = TypeError
     ∧ AStr "regression" = AStr "classification"
     ∧ ∃ a, PNone = PAtom a ∧ a ≠ ANone).
Proof.
  exact (check_model_then_contributions_failures
           {[ "predict" := method 1 ]} (AStr "regression") PNone
           (PList []) _ eq_refl eq_refl).
Defined.

(** ** check_preprocessing *)

(** X22. [check_preprocessing] passes on [None] without calling either
    helper.  On any other value, once the helpers have answered, it passes
    exactly when one of the two flags of [check_supported_inverse] is set,
    and otherwise fails with its own message; a failure of a helper is
    passed on. *)
Theorem check_preprocessing_spec
    (preprocessing_tolist : pyval → result (list pyval))
    (check_supported_inverse : list pyval → result (bool * bool))
    (preprocessing : pyval) :
  check_preprocessing preprocessing_tolist check_supported_inverse PNone
  = Return tt
  ∧ (preprocessing ≠ PNone →
     (∀ l use_ct use_ce,
        preprocessing_tolist preprocessing = Return l →
        check_supported_inverse l = Return (use_ct, use_ce) →
        check_preprocessing preprocessing_tolist check_supported_inverse
          preprocessing
        = if use_ct || use_ce then Return tt
          else Raise UnsupportedPreprocessingError)
     ∧ (∀ e, preprocessing_tolist preprocessing = Raise e →
             check_preprocessing preprocessing_tolist check_supported_inverse
               preprocessing = Raise e)
     ∧ (∀ l e, preprocessing_tolist preprocessing = Return l →
               check_supported_inverse l = Raise e →
               check_preprocessing preprocessing_tolist
                 check_supported_inverse preprocessing = Raise e)).
Proof.
  split; [done|]. intros Hsome. unfold check_preprocessing.
  apply py_is_None_false in Hsome as ->. cbn [negb].
  split_and!.
  - intros l use_ct use_ce -> . cbn. intros ->. cbn.
    by destruct use_ct, use_ce.
  - by intros e ->.
  - intros l e ->. cbn. by intros ->.
Qed.
